(** * Timer: the work/break countdown store of [src/app/page.tsx]

    A shallow embedding of the zustand store [useTimerStore], of the two
    duration handlers of the [Home] component and of the [mm:ss] display,
    together with the host facilities they call ([setInterval],
    [clearInterval], [HTMLAudioElement.play]). *)

From Stdlib Require Import ZArith List Bool String Ascii Lia DecimalString.
Import ListNotations.
Local Open Scope Z_scope.

(** ** Data model *)

(** The value [setInterval] returns.  In a browser it is a number. *)
Definition Handle := Z.

(** An audio element is only ever asked to [play()]. *)
Inductive HTMLAudioElement : Set := AudioElement.

(** The data fields of [interface TimerState]; the function fields are the
    definitions further down. *)
Record TimerState : Set := mkTimerState {
  workTime : Z;
  breakTime : Z;
  remainingTime : Z;
  isRunning : bool;
  isWorkSession : bool;
  intervalId : option Handle;
  notificationSound : option HTMLAudioElement
}.

(** One [key: value] entry of the partial object handed to zustand's [set]. *)
Inductive Field : Set :=
| WorkTime (time : Z)
| BreakTime (time : Z)
| RemainingTime (time : Z)
| IsRunning (running : bool)
| IsWorkSession (isWork : bool)
| IntervalId (id : option Handle)
| NotificationSound (audio : option HTMLAudioElement).

Definition assign (s : TimerState) (f : Field) : TimerState :=
  match f with
  | WorkTime t =>
      mkTimerState t (breakTime s) (remainingTime s) (isRunning s)
        (isWorkSession s) (intervalId s) (notificationSound s)
  | BreakTime t =>
      mkTimerState (workTime s) t (remainingTime s) (isRunning s)
        (isWorkSession s) (intervalId s) (notificationSound s)
  | RemainingTime t =>
      mkTimerState (workTime s) (breakTime s) t (isRunning s)
        (isWorkSession s) (intervalId s) (notificationSound s)
  | IsRunning b =>
      mkTimerState (workTime s) (breakTime s) (remainingTime s) b
        (isWorkSession s) (intervalId s) (notificationSound s)
  | IsWorkSession b =>
      mkTimerState (workTime s) (breakTime s) (remainingTime s) (isRunning s)
        b (intervalId s) (notificationSound s)
  | IntervalId i =>
      mkTimerState (workTime s) (breakTime s) (remainingTime s) (isRunning s)
        (isWorkSession s) i (notificationSound s)
  | NotificationSound a =>
      mkTimerState (workTime s) (breakTime s) (remainingTime s) (isRunning s)
        (isWorkSession s) (intervalId s) a
  end.

(** The shallow merge zustand performs: later entries win. *)
Definition merge (s : TimerState) (partial : list Field) : TimerState :=
  fold_left assign partial s.

(** The store together with the part of the host it talks to: the table of
    live intervals (each with the [notificationSound] its callback closed
    over), the next handle [setInterval] will hand out, and the number of
    [play()] calls made so far. *)
Record World : Set := mkWorld {
  store : TimerState;
  timers : list (Handle * option HTMLAudioElement);
  nextHandle : Handle;
  played : nat
}.

(** ** Host facilities *)

Definition set_ (partial : list Field) (w : World) : World :=
  mkWorld (merge (store w) partial) (timers w) (nextHandle w) (played w).

Definition setInterval (captured : option HTMLAudioElement) (w : World)
  : Handle * World :=
  let id := nextHandle w in
  (id, mkWorld (store w) ((id, captured) :: timers w) (id + 1) (played w)).

Definition clearInterval (id : option Handle) (w : World) : World :=
  match id with
  | Some h =>
      mkWorld (store w)
        (filter (fun t => negb (fst t =? h)) (timers w))
        (nextHandle w) (played w)
  | None => w
  end.

(** [notificationSound?.play().catch(...)]: nothing happens on [null]; a
    rejected promise is logged and dropped. *)
Definition play (sound : option HTMLAudioElement) (w : World) : World :=
  match sound with
  | Some _ => mkWorld (store w) (timers w) (nextHandle w) (S (played w))
  | None => w
  end.

(** JavaScript truthiness of [intervalId]: [null] and [0] are falsy. *)
Definition truthy (id : option Handle) : bool :=
  match id with
  | Some h => negb (h =? 0)
  | None => false
  end.

(** ** The store, [create<TimerState>((set, get) => ({ ... }))] *)

Definition useTimerStore : TimerState :=
  mkTimerState (50 * 60) (10 * 60) (50 * 60) false true None None.

Definition setWorkTime (time : Z) : World -> World := set_ [WorkTime time].
Definition setBreakTime (time : Z) : World -> World := set_ [BreakTime time].
Definition setRemainingTime (time : Z) : World -> World :=
  set_ [RemainingTime time].
Definition setIsRunning (running : bool) : World -> World :=
  set_ [IsRunning running].
Definition setIsWorkSession (isWork : bool) : World -> World :=
  set_ [IsWorkSession isWork].
Definition setIntervalId (id : option Handle) : World -> World :=
  set_ [IntervalId id].
Definition setNotificationSound (audio : HTMLAudioElement) : World -> World :=
  set_ [NotificationSound (Some audio)].

(** The callback [startTimer] gives to [setInterval]; [sound] is the
    [notificationSound] read when the timer was started. *)
Definition tick (sound : option HTMLAudioElement) (w : World) : World :=
  let state := store w in
  if remainingTime state <=? 0 then
    let w1 := clearInterval (intervalId state) w in
    let w2 := play sound w1 in
    let nextIsWorkSession := negb (isWorkSession state) in
    let nextRemainingTime :=
      if nextIsWorkSession then workTime state else breakTime state in
    set_ [IsRunning false; IsWorkSession nextIsWorkSession;
          RemainingTime nextRemainingTime; IntervalId None] w2
  else
    set_ [RemainingTime (remainingTime state - 1)] w.

Definition startTimer (w : World) : World :=
  let s := store w in
  if isRunning s then w
  else
    let w1 :=
      if remainingTime s =? 0 then
        set_ [RemainingTime (if isWorkSession s then workTime (store w)
                             else breakTime (store w))] w
      else w in
    let w2 := set_ [IsRunning true] w1 in
    let (id, w3) := setInterval (notificationSound s) w2 in
    set_ [IntervalId (Some id)] w3.

Definition pauseTimer (w : World) : World :=
  let id := intervalId (store w) in
  let w1 := if truthy id then clearInterval id w else w in
  set_ [IsRunning false; IntervalId None] w1.

Definition resetTimer (w : World) : World :=
  let w1 := pauseTimer w in
  set_ [RemainingTime (if isWorkSession (store w1) then workTime (store w1)
                       else breakTime (store w1));
        IsRunning false; IntervalId None] w1.

Definition skipSession (w : World) : World :=
  let w1 := pauseTimer w in
  let nextIsWorkSession := negb (isWorkSession (store w1)) in
  let nextRemainingTime :=
    if nextIsWorkSession then workTime (store w1) else breakTime (store w1) in
  set_ [IsWorkSession nextIsWorkSession; RemainingTime nextRemainingTime;
        IsRunning false; IntervalId None] w1.

(** ** The [Home] component *)

(** [inputWorkMinutes] is an integer: the field's [onChange] stores
    [parseInt(e.target.value) || 0]. *)
Definition handleSetWorkTime (inputWorkMinutes : Z) (w : World) : World :=
  let newWorkTime := Z.max 1 (Z.min inputWorkMinutes 120) * 60 in
  let w1 := setWorkTime newWorkTime w in
  if isWorkSession (store w) && negb (isRunning (store w)) then
    setRemainingTime newWorkTime w1
  else w1.

Definition handleSetBreakTime (inputBreakMinutes : Z) (w : World) : World :=
  let newBreakTime := Z.max 1 (Z.min inputBreakMinutes 60) * 60 in
  let w1 := setBreakTime newBreakTime w in
  if negb (isWorkSession (store w)) && negb (isRunning (store w)) then
    setRemainingTime newBreakTime w1
  else w1.

(** The start/pause button, [onClick={isRunning ? pauseTimer : startTimer}],
    with its caption, and the session heading. *)
Definition handleStartPauseClick (w : World) : World :=
  if isRunning (store w) then pauseTimer w else startTimer w.

Definition startPauseLabel (s : TimerState) : string :=
  if isRunning s then "Pause"%string else "Start"%string.

Definition sessionLabel (s : TimerState) : string :=
  if isWorkSession s then "WORK SESSION"%string else "BREAK SESSION"%string.

(** What a field's [onChange] keeps as the draft,
    [parseInt(e.target.value) || 0]: [parsed] is the result of [parseInt],
    [None] standing for [NaN]. *)
Definition onChangeDraft (parsed : option Z) : Z :=
  match parsed with
  | Some n => if n =? 0 then 0 else n
  | None => 0
  end.

(** ** The display, [format(new Date(remainingTime * 1000), "mm:ss")]

    [new Date(ms)] is the instant [ms] milliseconds after the epoch, and
    date-fns' [format] prints fields of that instant in local time: [mm] is
    [getMinutes()], the minute of the hour, and [ss] is [getSeconds()], both
    through [addLeadingZeros(_, 2)].  The host's offset of local time from
    UTC, in milliseconds, is the parameter [tz]. *)

Definition getMinutes (tz date : Z) : Z := ((date + tz) / 60000) mod 60.
Definition getSeconds (tz date : Z) : Z := ((date + tz) / 1000) mod 60.

Definition toString (n : Z) : string :=
  NilZero.string_of_uint (N.to_uint (Z.to_N n)).

Fixpoint zeros (n : nat) : string :=
  match n with
  | O => EmptyString
  | S k => String "0" (zeros k)
  end.

(** [s.padStart(targetLength, "0")]. *)
Definition padStart (s : string) (targetLength : nat) : string :=
  (zeros (targetLength - String.length s) ++ s)%string.

Definition addLeadingZeros (number : Z) (targetLength : nat) : string :=
  let sign := if number <? 0 then "-"%string else EmptyString in
  let output := padStart (toString (Z.abs number)) targetLength in
  (sign ++ output)%string.

Definition format_mm_ss (tz date : Z) : string :=
  (addLeadingZeros (getMinutes tz date) 2 ++ ":" ++
   addLeadingZeros (getSeconds tz date) 2)%string.

Definition display (tz remainingTime : Z) : string :=
  format_mm_ss tz (remainingTime * 1000).

(** The display as the specification words it: zero-padded [MM:SS] with
    [MM = remainingSeconds div 60] and [SS = remainingSeconds mod 60]. *)
Definition display_spec (remainingSeconds : Z) : string :=
  (addLeadingZeros (remainingSeconds / 60) 2 ++ ":" ++
   addLeadingZeros (remainingSeconds mod 60) 2)%string.

(** ** Runs of the widget *)

(** What can happen to the widget: a call of one of the store's operations,
    a committed duration edit, or the host firing the interval [h]. *)
Inductive Event : Set :=
| Start
| Pause
| Reset
| Skip
| SetWork (minutes : Z)
| SetBreak (minutes : Z)
| Tick (h : Handle).

(** The host runs the callback of interval [h], if that interval is live. *)
Definition fire (h : Handle) (w : World) : World :=
  match find (fun t => fst t =? h) (timers w) with
  | Some t => tick (snd t) w
  | None => w
  end.

Definition step (e : Event) (w : World) : World :=
  match e with
  | Start => startTimer w
  | Pause => pauseTimer w
  | Reset => resetTimer w
  | Skip => skipSession w
  | SetWork m => handleSetWorkTime m w
  | SetBreak m => handleSetBreakTime m w
  | Tick h => fire h w
  end.

(** The page as first rendered.  The host numbers its intervals upwards
    from some [h0]; browsers only hand out handles greater than zero. *)
Definition initialWorld (h0 : Handle) : World := mkWorld useTimerStore [] h0 O.

(** The worlds the widget can be in when only events allowed by [ok] occur. *)
Inductive reachableBy (ok : Event -> World -> bool) : World -> Prop :=
| reach_init : forall h0, 0 < h0 -> reachableBy ok (initialWorld h0)
| reach_step : forall e w,
    reachableBy ok w -> ok e w = true -> reachableBy ok (step e w).

Definition reachable : World -> Prop := reachableBy (fun _ _ => true).

(** The configured duration of the session the store is in. *)
Definition sessionDuration (s : TimerState) : Z :=
  if isWorkSession s then workTime s else breakTime s.

(** [n] firings of interval [h] in a row, with the number of them at which
    the session type changed. *)
Fixpoint runTicks (h : Handle) (n : nat) (w : World) : World * nat :=
  match n with
  | O => (w, O)
  | S k =>
      let w' := fire h w in
      let changed :=
        if Bool.eqb (isWorkSession (store w)) (isWorkSession (store w'))
        then O else 1%nat in
      let (w'', c) := runTicks h k w' in
      (w'', (changed + c)%nat)
  end.

(** [clamp(d, min, max)] as the specification uses it. *)
Definition clamp (d lo hi : Z) : Z :=
  if d <? lo then lo else if hi <? d then hi else d.

(** The world after a full work countdown that was then paused: stopped, in
    the work session, with nothing left on the clock. *)
Definition pausedAtZero : World :=
  pauseTimer (fst (runTicks 1 3000 (startTimer (initialWorld 1)))).

(** The world after the work duration is cut to one minute while the default
    work session is counting down. *)
Definition shortenedWhileRunning : World :=
  handleSetWorkTime 1 (startTimer (initialWorld 1)).

(** ** Invariants *)

(** The clock shows no more than the current session's duration. *)
Definition withinSession (w : World) : Prop :=
  remainingTime (store w) <= sessionDuration (store w).

(** The events that cannot push the configured duration of the running
    session below what is left on the clock: everything except a commit of
    the active session's duration, made while the timer runs, to fewer
    seconds than remain. *)
Definition keepsBound (e : Event) (w : World) : bool :=
  let s := store w in
  match e with
  | SetWork m =>
      negb (isRunning s && isWorkSession s)
      || (remainingTime s <=? Z.max 1 (Z.min m 120) * 60)
  | SetBreak m =>
      negb (isRunning s && negb (isWorkSession s))
      || (remainingTime s <=? Z.max 1 (Z.min m 60) * 60)
  | _ => true
  end.

(** The live intervals are exactly the stored handle, the timer runs exactly
    when a handle is stored, and handles are positive. *)
Definition handlesOk (w : World) : Prop :=
  map fst (timers w) =
    match intervalId (store w) with Some h => [h] | None => [] end /\
  isRunning (store w) =
    match intervalId (store w) with Some _ => true | None => false end /\
  (forall h, intervalId (store w) = Some h -> 0 < h) /\
  0 < nextHandle w.

(** The configured durations are whole minutes within the handlers' caps,
    and the clock is between 0 and the larger cap, the break cap in a break
    session. *)
Definition configOk (w : World) : Prop :=
  let s := store w in
  60 <= workTime s <= 7200 /\ workTime s mod 60 = 0 /\
  60 <= breakTime s <= 3600 /\ breakTime s mod 60 = 0 /\
  0 <= remainingTime s <= 7200 /\
  (isWorkSession s = false -> remainingTime s <= 3600).

(** No audio element is stored or closed over, and none was played. *)
Definition silent (w : World) : Prop :=
  notificationSound (store w) = None /\
  Forall (fun t => snd t = None) (timers w) /\
  played w = O.

(** ** Basic facts *)

Ltac destruct_world w :=
  destruct w as [[wt bt rt running ses id snd] ts nh pl].


Lemma max_min_clamp (d lo hi : Z) :
  lo <= hi -> Z.max lo (Z.min d hi) = clamp d lo hi.
Proof.
  intros Hle. unfold clamp.
  destruct (Z.ltb_spec d lo); destruct (Z.ltb_spec hi d); lia.
Qed.

Lemma reachableBy_weaken (ok : Event -> World -> bool) (w : World) :
  reachableBy ok w -> reachable w.
Proof.
  induction 1 as [h0 Hh0 | e w Hw IH Hok].
  - now apply reach_init.
  - now apply reach_step.
Qed.

Lemma reachable_runTicks (h : Handle) (n : nat) :
  forall w, reachable w -> reachable (fst (runTicks h n w)).
Proof.
  induction n as [| k IH]; intros w Hw; simpl.
  - exact Hw.
  - specialize (IH (fire h w) (reach_step _ (Tick h) w Hw eq_refl)).
    destruct (runTicks h k (fire h w)) as [w'' c]. exact IH.
Qed.

Example display_65 : display 0 65 = "01:05"%string.
Proof. reflexivity. Qed.

Example display_0 : display 0 0 = "00:00"%string.
Proof. reflexivity. Qed.

(** ** Reset, skip and the duration handlers *)

(** C6: [resetTimer] puts the full duration of the current session type on
    the clock and stops the timer; the session type and both configured
    durations stay as they were, whatever the clock showed before. *)
Theorem resetTimer_restores_session (w : World) :
  remainingTime (store (resetTimer w)) = sessionDuration (store w) /\
  isRunning (store (resetTimer w)) = false /\
  isWorkSession (store (resetTimer w)) = isWorkSession (store w) /\
  workTime (store (resetTimer w)) = workTime (store w) /\
  breakTime (store (resetTimer w)) = breakTime (store w).
Proof.
  unfold resetTimer, pauseTimer, sessionDuration.
  destruct (truthy (intervalId (store w)));
    destruct (intervalId (store w)); simpl; repeat split; reflexivity.
Qed.

(** C7: [skipSession] negates [isWorkSession], puts the full duration of the
    new session type on the clock and stops the timer; from the initial
    stopped work session of 3000 s it yields the stopped break session of
    600 s. *)
Theorem skipSession_flips_session (w : World) (h0 : Handle) :
  isWorkSession (store (skipSession w)) = negb (isWorkSession (store w)) /\
  remainingTime (store (skipSession w)) =
    sessionDuration (store (skipSession w)) /\
  workTime (store (skipSession w)) = workTime (store w) /\
  breakTime (store (skipSession w)) = breakTime (store w) /\
  isRunning (store (skipSession w)) = false /\
  store (skipSession (initialWorld h0)) =
    mkTimerState 3000 600 600 false false None None.
Proof.
  unfold skipSession, pauseTimer, sessionDuration.
  destruct (truthy (intervalId (store w)));
    destruct (intervalId (store w)); simpl;
    destruct (isWorkSession (store w)); simpl; repeat split; reflexivity.
Qed.

(** C5: committing [d] minutes stores [clamp(d,1,120)*60] seconds as the work
    duration, respectively [clamp(d,1,60)*60] seconds as the break duration;
    the work commit also puts the new value on the clock exactly in a stopped
    work session, the break commit exactly in a stopped break session, and
    the clock is untouched otherwise. *)
Theorem duration_commit_clamps (d : Z) (w : World) :
  workTime (store (handleSetWorkTime d w)) = clamp d 1 120 * 60 /\
  remainingTime (store (handleSetWorkTime d w)) =
    (if isWorkSession (store w) && negb (isRunning (store w))
     then clamp d 1 120 * 60 else remainingTime (store w)) /\
  breakTime (store (handleSetBreakTime d w)) = clamp d 1 60 * 60 /\
  remainingTime (store (handleSetBreakTime d w)) =
    (if negb (isWorkSession (store w)) && negb (isRunning (store w))
     then clamp d 1 60 * 60 else remainingTime (store w)).
Proof.
  unfold handleSetWorkTime, handleSetBreakTime.
  rewrite <- (max_min_clamp d 1 120), <- (max_min_clamp d 1 60) by lia.
  destruct (isWorkSession (store w)); destruct (isRunning (store w));
    simpl; repeat split; reflexivity.
Qed.

(** C10: a work-duration commit made while the timer runs, or during a break
    session, changes [workTime] and nothing else; a break-duration commit
    made while the timer runs, or during a work session, changes [breakTime]
    and nothing else. *)
Theorem duration_commit_frame (d : Z) (w : World) :
  (isRunning (store w) = true \/ isWorkSession (store w) = false ->
   let w' := handleSetWorkTime d w in
   w' = set_ [WorkTime (clamp d 1 120 * 60)] w /\
   remainingTime (store w') = remainingTime (store w) /\
   isRunning (store w') = isRunning (store w) /\
   isWorkSession (store w') = isWorkSession (store w) /\
   breakTime (store w') = breakTime (store w)) /\
  (isRunning (store w) = true \/ isWorkSession (store w) = true ->
   let w' := handleSetBreakTime d w in
   w' = set_ [BreakTime (clamp d 1 60 * 60)] w /\
   remainingTime (store w') = remainingTime (store w) /\
   isRunning (store w') = isRunning (store w) /\
   isWorkSession (store w') = isWorkSession (store w) /\
   workTime (store w') = workTime (store w)).
Proof.
  unfold handleSetWorkTime, handleSetBreakTime, setWorkTime, setBreakTime.
  rewrite <- (max_min_clamp d 1 120), <- (max_min_clamp d 1 60) by lia.
  destruct w as [[wt bt rt running ses id snd] ts nh pl]; simpl.
  destruct ses; destruct running;
    split; intros [Hrun | Hses]; try discriminate; simpl;
    repeat split; reflexivity.
Qed.

Lemma duration_commit_frame_witness :
  let w := startTimer (initialWorld 1) in
  remainingTime (store (handleSetWorkTime 25 w)) = 3000 /\
  remainingTime (store (handleSetBreakTime 5 w)) = 3000.
Proof.
  destruct (duration_commit_frame 25 (startTimer (initialWorld 1)))
    as [Hwork _].
  destruct (duration_commit_frame 5 (startTimer (initialWorld 1)))
    as [_ Hbreak].
  split.
  - apply Hwork. left. reflexivity.
  - apply Hbreak. left. reflexivity.
Defined.

(** ** Start and pause *)

(** C8: [startTimer] leaves a running timer exactly as it is; on a stopped
    one it sets [isRunning], after refilling a clock that stands at 0 with
    the full duration of the current session type.  Hence a second
    [startTimer] right after the first changes nothing. *)
Theorem startTimer_idempotent (w : World) :
  (if isRunning (store w) then startTimer w = w
   else isRunning (store (startTimer w)) = true /\
        remainingTime (store (startTimer w)) =
          (if remainingTime (store w) =? 0 then sessionDuration (store w)
           else remainingTime (store w))) /\
  startTimer (startTimer w) = startTimer w.
Proof.
  unfold startTimer, sessionDuration.
  destruct (isRunning (store w)) eqn:Hrun.
  - rewrite Hrun. split; reflexivity.
  - destruct (remainingTime (store w) =? 0); simpl; repeat split; reflexivity.
Qed.

(** C4, as amended: when the clock does not stand at 0, or the timer is
    already running, [startTimer] followed at once by [pauseTimer] leaves
    [remainingTime] as it was. *)
Theorem start_pause_keeps_remaining (w : World) :
  remainingTime (store w) <> 0 \/ isRunning (store w) = true ->
  remainingTime (store (pauseTimer (startTimer w))) = remainingTime (store w).
Proof.
  intros H. unfold startTimer.
  destruct (isRunning (store w)) eqn:Hrun.
  - unfold pauseTimer.
    destruct (truthy (intervalId (store w)));
      destruct (intervalId (store w)); reflexivity.
  - destruct H as [Hnz | Habs]; [| discriminate].
    apply Z.eqb_neq in Hnz. rewrite Hnz.
    unfold pauseTimer. simpl.
    destruct (negb (nextHandle w =? 0)); reflexivity.
Qed.

Lemma start_pause_keeps_remaining_witness :
  remainingTime (store (pauseTimer (startTimer (initialWorld 1)))) = 3000.
Proof.
  apply (start_pause_keeps_remaining (initialWorld 1)).
  left. simpl. lia.
Defined.

(** C4, as stated, fails: a countdown paused at 0 is refilled by
    [startTimer], and [pauseTimer] keeps the refilled value. *)
Lemma start_pause_refills_at_zero :
  reachable pausedAtZero /\
  remainingTime (store pausedAtZero) = 0 /\
  remainingTime (store (pauseTimer (startTimer pausedAtZero))) = 3000.
Proof.
  split; [| split; vm_compute; reflexivity].
  unfold pausedAtZero.
  apply (reach_step _ Pause); [| reflexivity].
  apply reachable_runTicks.
  apply (reach_step _ Start); [| reflexivity].
  apply reach_init. lia.
Qed.

(** ** The clock never exceeds the session's duration, with one exception *)

Lemma tick_withinSession (sound : option HTMLAudioElement) (w : World) :
  withinSession w -> withinSession (tick sound w).
Proof.
  unfold withinSession, sessionDuration, tick. destruct_world w. simpl.
  intros Hle. destruct (Z.leb_spec rt 0) as [Hz | Hpos].
  - destruct id; destruct sound; destruct ses; simpl; lia.
  - destruct ses; simpl in *; lia.
Qed.

Lemma step_withinSession (e : Event) (w : World) :
  withinSession w -> keepsBound e w = true -> withinSession (step e w).
Proof.
  destruct e as [| | | | m | m | h]; simpl step; intros Hle Hok.
  - revert Hle. unfold withinSession, sessionDuration, startTimer.
    destruct_world w. simpl.
    destruct running; simpl; [intros Hle; exact Hle |].
    destruct (rt =? 0); destruct ses; simpl; lia.
  - revert Hle. unfold withinSession, sessionDuration, pauseTimer.
    destruct_world w. simpl.
    destruct (truthy id); destruct id; simpl; intros Hle; exact Hle.
  - unfold withinSession, sessionDuration, resetTimer, pauseTimer.
    destruct_world w. simpl.
    destruct (truthy id); destruct id; destruct ses; simpl; lia.
  - unfold withinSession, sessionDuration, skipSession, pauseTimer.
    destruct_world w. simpl.
    destruct (truthy id); destruct id; destruct ses; simpl; lia.
  - revert Hle Hok.
    unfold withinSession, sessionDuration, keepsBound, handleSetWorkTime.
    destruct_world w. simpl.
    destruct ses; destruct running; simpl; intros Hle Hok;
      try apply Z.leb_le in Hok; lia.
  - revert Hle Hok.
    unfold withinSession, sessionDuration, keepsBound, handleSetBreakTime.
    destruct_world w. simpl.
    destruct ses; destruct running; simpl; intros Hle Hok;
      try apply Z.leb_le in Hok; lia.
  - unfold fire.
    destruct (find (fun t => fst t =? h) (timers w)) as [t |]; [| exact Hle].
    now apply tick_withinSession.
Qed.

(** C1, as amended: in every state reached through start, pause, reset,
    skip, ticks and duration commits, none of the commits being one that
    cuts the running session's duration below the time left,
    [remainingTime] is at most the configured duration of the current
    session type. *)
Theorem remaining_within_session (w : World) :
  reachableBy keepsBound w ->
  remainingTime (store w) <= sessionDuration (store w).
Proof.
  induction 1 as [h0 Hh0 | e w Hw IH Hok].
  - simpl. unfold sessionDuration. simpl. lia.
  - now apply step_withinSession.
Qed.

Lemma remaining_within_session_witness :
  remainingTime (store (handleSetWorkTime 25 (initialWorld 1)))
  <= sessionDuration (store (handleSetWorkTime 25 (initialWorld 1))).
Proof.
  apply (remaining_within_session (step (SetWork 25) (initialWorld 1))).
  apply reach_step.
  - apply reach_init. lia.
  - reflexivity.
Defined.

(** C1, as stated, fails: cutting the work duration to one minute while the
    default work session counts down leaves 3000 s on a 60 s session. *)
Lemma remaining_exceeds_shortened_session :
  reachable shortenedWhileRunning /\
  remainingTime (store shortenedWhileRunning) = 3000 /\
  sessionDuration (store shortenedWhileRunning) = 60 /\
  ~ remainingTime (store shortenedWhileRunning)
    <= sessionDuration (store shortenedWhileRunning).
Proof.
  split; [| split; [reflexivity | split; [reflexivity | vm_compute; congruence]]].
  unfold shortenedWhileRunning.
  apply (reach_step _ (SetWork 1)); [| reflexivity].
  apply (reach_step _ Start); [| reflexivity].
  apply reach_init. lia.
Qed.

(** ** Counting a session down *)

Lemma set_remaining_twice (a b : Z) (w : World) :
  set_ [RemainingTime a] (set_ [RemainingTime b] w) = set_ [RemainingTime a] w.
Proof. reflexivity. Qed.

Lemma set_remaining_same (w : World) :
  set_ [RemainingTime (remainingTime (store w))] w = w.
Proof. destruct_world w. reflexivity. Qed.

(** While at least [n] seconds are left, [n] firings of a live interval take
    [n] seconds off the clock and touch nothing else. *)
Lemma runTicks_countdown (h : Handle) (n : nat) :
  forall (w : World) (t : Handle * option HTMLAudioElement),
    find (fun t => fst t =? h) (timers w) = Some t ->
    Z.of_nat n <= remainingTime (store w) ->
    runTicks h n w =
      (set_ [RemainingTime (remainingTime (store w) - Z.of_nat n)] w, O).
Proof.
  induction n as [| k IH]; intros w t Hlive Hleft.
  - simpl. rewrite Z.sub_0_r, set_remaining_same. reflexivity.
  - cbn [runTicks]. unfold fire. rewrite Hlive. unfold tick.
    destruct (Z.leb_spec (remainingTime (store w)) 0) as [Hz | Hpos]; [lia |].
    rewrite (IH _ t) by (simpl; trivial; lia).
    rewrite set_remaining_twice. simpl.
    rewrite Bool.eqb_reflx.
    replace (remainingTime (store w) - 1 - Z.of_nat k)
      with (remainingTime (store w) - Z.of_nat (S k)) by lia.
    reflexivity.
Qed.

Lemma runTicks_add (h : Handle) (n m : nat) :
  forall w,
    runTicks h (n + m) w =
      (fst (runTicks h m (fst (runTicks h n w))),
       (snd (runTicks h n w) + snd (runTicks h m (fst (runTicks h n w))))%nat).
Proof.
  induction n as [| k IH]; intros w.
  - simpl. now destruct (runTicks h m w).
  - cbn [Nat.add runTicks]. rewrite IH.
    destruct (runTicks h k (fire h w)) as [w1 c1]. simpl.
    now rewrite Nat.add_assoc.
Qed.

(** Once no interval is live, the host has nothing to fire. *)
Lemma runTicks_idle (h : Handle) (n : nat) :
  forall w, timers w = [] -> runTicks h n w = (w, O).
Proof.
  induction n as [| k IH]; intros w Hnone; [reflexivity |].
  cbn [runTicks]. unfold fire. rewrite Hnone. simpl find.
  rewrite Bool.eqb_reflx, (IH w Hnone). reflexivity.
Qed.

(** C2, as amended: from the initial stopped work session of 3000 s,
    [startTimer] and 3000 firings of the interval bring the clock to 0 with
    the timer still running in the work session and no session change; the
    next firing performs the one session change and leaves the stopped break
    session of 600 s, and there is no further firing that changes it. *)
Theorem countdown_completes_on_next_tick (h0 : Handle) (n : nat) :
  runTicks h0 3000 (startTimer (initialWorld h0)) =
    (mkWorld (mkTimerState 3000 600 0 true true (Some h0) None)
       [(h0, None)] (h0 + 1) O, O) /\
  runTicks h0 (3000 + 1 + n) (startTimer (initialWorld h0)) =
    (mkWorld (mkTimerState 3000 600 600 false false None None)
       [] (h0 + 1) O, 1%nat).
Proof.
  assert (H3000 :
    runTicks h0 3000 (startTimer (initialWorld h0)) =
      (mkWorld (mkTimerState 3000 600 0 true true (Some h0) None)
         [(h0, None)] (h0 + 1) O, O)).
  { change 3000%nat with (Z.to_nat 3000).
    rewrite (runTicks_countdown h0 (Z.to_nat 3000) _ (h0, None)).
    - reflexivity.
    - simpl. now rewrite Z.eqb_refl.
    - rewrite Z2Nat.id by lia. simpl. lia. }
  split; [exact H3000 |].
  rewrite runTicks_add, runTicks_add, H3000.
  cbn [fst snd runTicks]. unfold fire. simpl find.
  rewrite Z.eqb_refl. unfold tick. simpl. rewrite Z.eqb_refl. simpl.
  rewrite runTicks_idle by reflexivity. reflexivity.
Qed.

(** C2, as stated, fails: after [startTimer] and 3000 firings the session
    has not changed and the timer is still running, with 0 s left. *)
Lemma countdown_3000_still_running :
  snd (runTicks 1 3000 (startTimer (initialWorld 1))) = O /\
  store (fst (runTicks 1 3000 (startTimer (initialWorld 1)))) =
    mkTimerState 3000 600 0 true true (Some 1) None /\
  store (fst (runTicks 1 3000 (startTimer (initialWorld 1)))) <>
    mkTimerState 3000 600 600 false false None None.
Proof.
  repeat split; try (vm_compute; reflexivity).
  vm_compute. discriminate.
Qed.

(** ** The interval handle *)

Lemma map_fst_single (h : Handle)
  (ts : list (Handle * option HTMLAudioElement)) :
  map fst ts = [h] -> exists sound, ts = [(h, sound)].
Proof.
  destruct ts as [| [h' sound] [| t ts]]; simpl; intros Heq;
    try discriminate.
  injection Heq as ->. now exists sound.
Qed.

Lemma handlesOk_set_times (w : World) (partial : list Field) :
  (forall f, In f partial ->
     match f with
     | WorkTime _ | BreakTime _ | RemainingTime _ => True
     | _ => False
     end) ->
  handlesOk w -> handlesOk (set_ partial w).
Proof.
  revert w. induction partial as [| f fs IH]; intros w Hfs Hok.
  - destruct_world w. exact Hok.
  - change (set_ (f :: fs) w) with (set_ fs (set_ [f] w)).
    apply IH; [intros g Hg; apply Hfs; now right |].
    specialize (Hfs f (or_introl eq_refl)).
    destruct_world w. destruct f; try contradiction; exact Hok.
Qed.

Lemma startTimer_handlesOk (w : World) : handlesOk w -> handlesOk (startTimer w).
Proof.
  unfold handlesOk, startTimer. destruct_world w. simpl.
  intros (Hts & Hrun & Hpos & Hnext).
  destruct running; simpl; [easy |].
  destruct id as [h |]; [discriminate |].
  apply map_eq_nil in Hts. subst ts.
  destruct (rt =? 0); simpl; repeat split; trivial; try lia;
    intros h Hh; injection Hh as <-; exact Hnext.
Qed.

Lemma pauseTimer_handlesOk (w : World) :
  handlesOk w -> handlesOk (pauseTimer w) /\ timers (pauseTimer w) = [].
Proof.
  unfold handlesOk, pauseTimer. destruct_world w. simpl.
  intros (Hts & Hrun & Hpos & Hnext).
  destruct id as [h |]; simpl.
  - destruct (map_fst_single h ts Hts) as [sound ->].
    specialize (Hpos h eq_refl).
    destruct (Z.eqb_spec h 0) as [Hz | Hnz]; [lia |]. simpl.
    rewrite Z.eqb_refl. simpl. repeat split; trivial; discriminate.
  - apply map_eq_nil in Hts. subst ts. repeat split; trivial; discriminate.
Qed.

Lemma tick_handlesOk (sound : option HTMLAudioElement) (w : World) :
  handlesOk w -> handlesOk (tick sound w).
Proof.
  unfold tick. intros Hok.
  destruct (remainingTime (store w) <=? 0).
  - revert Hok. unfold handlesOk. destruct_world w. simpl.
    intros (Hts & Hrun & Hpos & Hnext).
    destruct id as [h |]; simpl.
    + destruct (map_fst_single h ts Hts) as [sound' ->]. simpl.
      rewrite Z.eqb_refl. destruct sound; simpl;
        repeat split; trivial; discriminate.
    + apply map_eq_nil in Hts. subst ts.
      destruct sound; simpl; repeat split; trivial; discriminate.
  - apply handlesOk_set_times; [| exact Hok].
    intros f [<- | []]. exact I.
Qed.

Lemma step_handlesOk (e : Event) (w : World) :
  handlesOk w -> handlesOk (step e w).
Proof.
  intros Hok. destruct e as [| | | | m | m | h]; simpl step.
  - now apply startTimer_handlesOk.
  - now apply pauseTimer_handlesOk.
  - unfold resetTimer.
    destruct (pauseTimer_handlesOk w Hok) as [Hp Hnone]. revert Hp Hnone.
    generalize (pauseTimer w). intros w1. unfold handlesOk.
    destruct_world w1. simpl. intros (Hts & Hrun & Hpos & Hnext) ->.
    repeat split; trivial; discriminate.
  - unfold skipSession.
    destruct (pauseTimer_handlesOk w Hok) as [Hp Hnone]. revert Hp Hnone.
    generalize (pauseTimer w). intros w1. unfold handlesOk.
    destruct_world w1. simpl. intros (Hts & Hrun & Hpos & Hnext) ->.
    repeat split; trivial; discriminate.
  - unfold handleSetWorkTime, setWorkTime, setRemainingTime.
    destruct (isWorkSession (store w) && negb (isRunning (store w)));
      repeat apply handlesOk_set_times; trivial;
      intros f [<- | []]; exact I.
  - unfold handleSetBreakTime, setBreakTime, setRemainingTime.
    destruct (negb (isWorkSession (store w)) && negb (isRunning (store w)));
      repeat apply handlesOk_set_times; trivial;
      intros f [<- | []]; exact I.
  - unfold fire.
    destruct (find (fun t => fst t =? h) (timers w)) as [t |]; trivial.
    now apply tick_handlesOk.
Qed.

Lemma reachable_handlesOk (w : World) : reachable w -> handlesOk w.
Proof.
  induction 1 as [h0 Hh0 | e w Hw IH Hok].
  - unfold handlesOk. simpl. repeat split; trivial; discriminate.
  - now apply step_handlesOk.
Qed.

(** C9: in every state the widget can reach, so after each of its operations
    and after each tick, at most one interval is live, [isRunning] is false
    exactly when no handle is stored, and then no interval is live at all;
    [pauseTimer], [resetTimer] and [skipSession] leave no interval live. *)
Theorem at_most_one_live_interval (w : World) :
  reachable w ->
  (List.length (timers w) <= 1)%nat /\
  (isRunning (store w) = false <-> intervalId (store w) = None) /\
  (isRunning (store w) = false -> timers w = []) /\
  timers (pauseTimer w) = [] /\
  timers (resetTimer w) = [] /\
  timers (skipSession w) = [].
Proof.
  intros Hreach. pose proof (reachable_handlesOk w Hreach) as Hok.
  destruct (pauseTimer_handlesOk w Hok) as [_ Hpause].
  destruct Hok as (Hts & Hrun & _ & _).
  assert (Hlen : List.length (map fst (timers w)) = List.length (timers w))
    by apply length_map.
  repeat split.
  - rewrite <- Hlen, Hts. destruct (intervalId (store w)); simpl; lia.
  - rewrite Hrun. destruct (intervalId (store w)); easy.
  - intros Hnone. rewrite Hrun, Hnone. reflexivity.
  - rewrite Hrun. destruct (intervalId (store w)); [discriminate |].
    intros _. now apply map_eq_nil in Hts.
  - exact Hpause.
  - exact Hpause.
  - exact Hpause.
Qed.

Lemma at_most_one_live_interval_witness :
  (List.length (timers (startTimer (initialWorld 1%Z))) <= 1)%nat /\
  timers (pauseTimer (startTimer (initialWorld 1))) = [].
Proof.
  destruct (at_most_one_live_interval (step Start (initialWorld 1)))
    as (Hlen & _ & _ & Hpause & _).
  - apply reach_step; [apply reach_init; lia | reflexivity].
  - split; [exact Hlen | exact Hpause].
Defined.

(** ** The display *)

Lemma getMinutes_next_hour (tz date : Z) :
  getMinutes tz (date + 3600000) = getMinutes tz date.
Proof.
  unfold getMinutes.
  replace (date + 3600000 + tz) with (date + tz + 60 * 60000) by lia.
  rewrite Z.div_add by lia.
  exact (Z_mod_plus_full ((date + tz) / 60000) 1 60).
Qed.

Lemma getSeconds_next_hour (tz date : Z) :
  getSeconds tz (date + 3600000) = getSeconds tz date.
Proof.
  unfold getSeconds.
  replace (date + 3600000 + tz) with (date + tz + 3600 * 1000) by lia.
  rewrite Z.div_add by lia.
  exact (Z_mod_plus_full ((date + tz) / 1000) 60 60).
Qed.


Example display_half_hour_zone :
  display (5 * 3600000 + 1800000) 0 = "30:00"%string.
Proof. reflexivity. Qed.

(** C3: the display is meant to be the zero-padded [MM:SS] with
    [MM = remainingTime div 60], but [mm] is the minute of the hour: a clock
    of an hour or more shows what the clock an hour lower shows.  A work
    duration of 60 minutes, which the handler accepts, puts 3600 s on the
    clock, displayed as 00:00 and not as 60:00. *)
Theorem display_wraps_after_an_hour :
  (forall tz r, display tz (r + 3600) = display tz r) /\
  remainingTime (store (handleSetWorkTime 60 (initialWorld 1))) = 3600 /\
  display 0 3600 = "00:00"%string /\
  display_spec 3600 = "60:00"%string.
Proof.
  split; [| repeat split; reflexivity].
  intros tz r. unfold display, format_mm_ss.
  replace ((r + 3600) * 1000) with (r * 1000 + 3600000) by lia.
  now rewrite getMinutes_next_hour, getSeconds_next_hour.
Qed.

(** * Further properties of the store and of the page *)

(** ** How the stopping operations compose *)

(** X1: [pauseTimer] stops the timer and forgets the handle without touching
    the clock, the session type or the configured durations, and a second
    [pauseTimer] changes nothing at all. *)
Theorem pauseTimer_idempotent_frame (w : World) :
  pauseTimer (pauseTimer w) = pauseTimer w /\
  store (pauseTimer w) =
    mkTimerState (workTime (store w)) (breakTime (store w))
      (remainingTime (store w)) false (isWorkSession (store w)) None
      (notificationSound (store w)) /\
  nextHandle (pauseTimer w) = nextHandle w /\
  played (pauseTimer w) = played w.
Proof.
  unfold pauseTimer. destruct_world w. simpl.
  destruct id as [h |]; simpl; [destruct (h =? 0); simpl |];
    repeat split; reflexivity.
Qed.

(** X2: skipping twice is resetting: the second [skipSession] returns to the
    session type one started from, with its full duration on the clock. *)
Theorem skipSession_twice_is_reset (w : World) :
  skipSession (skipSession w) = resetTimer w.
Proof.
  unfold skipSession, resetTimer, pauseTimer. destruct_world w. simpl.
  destruct id as [h |]; simpl; [destruct (h =? 0); simpl |];
    destruct ses; reflexivity.
Qed.

(** X3: [resetTimer] is idempotent and absorbs a [pauseTimer] before or
    after it; [skipSession] absorbs a [resetTimer] or [pauseTimer] before it
    and a [resetTimer] or [pauseTimer] after it. *)
Theorem reset_skip_absorb (w : World) :
  resetTimer (resetTimer w) = resetTimer w /\
  resetTimer (pauseTimer w) = resetTimer w /\
  pauseTimer (resetTimer w) = resetTimer w /\
  skipSession (resetTimer w) = skipSession w /\
  skipSession (pauseTimer w) = skipSession w /\
  resetTimer (skipSession w) = skipSession w /\
  pauseTimer (skipSession w) = skipSession w.
Proof.
  unfold skipSession, resetTimer, pauseTimer. destruct_world w. simpl.
  destruct id as [h |]; simpl; [destruct (h =? 0); simpl |];
    destruct ses; repeat split; reflexivity.
Qed.

(** ** The start/pause button *)

(** X4: a click on the start/pause button always flips [isRunning], so the
    caption changes from Start to Pause or back, and it leaves the session
    type, its heading and both configured durations alone. *)
Theorem startPause_click_toggles (w : World) :
  isRunning (store (handleStartPauseClick w)) = negb (isRunning (store w)) /\
  startPauseLabel (store (handleStartPauseClick w)) =
    (if isRunning (store w) then "Start"%string else "Pause"%string) /\
  sessionLabel (store (handleStartPauseClick w)) = sessionLabel (store w) /\
  workTime (store (handleStartPauseClick w)) = workTime (store w) /\
  breakTime (store (handleStartPauseClick w)) = breakTime (store w).
Proof.
  unfold handleStartPauseClick, startPauseLabel, sessionLabel,
    startTimer, pauseTimer.
  destruct_world w. simpl. destruct running; simpl.
  - destruct id as [h |]; simpl; [destruct (h =? 0); simpl |];
      repeat split; reflexivity.
  - destruct (rt =? 0); simpl; repeat split; reflexivity.
Qed.

(** X5: pausing and starting again resumes the same session from the clock
    as it stood, except that a countdown paused at 0 is not completed: it
    starts the same session over at its full duration. *)
Theorem pause_then_start_resumes (w : World) :
  let w' := startTimer (pauseTimer w) in
  isRunning (store w') = true /\
  isWorkSession (store w') = isWorkSession (store w) /\
  remainingTime (store w') =
    (if remainingTime (store w) =? 0 then sessionDuration (store w)
     else remainingTime (store w)).
Proof.
  unfold startTimer, pauseTimer, sessionDuration. destruct_world w. simpl.
  destruct id as [h |]; simpl; [destruct (h =? 0); simpl |];
    destruct (rt =? 0); simpl; repeat split; reflexivity.
Qed.

(** ** Duration commits *)

(** X6: a work commit and a break commit commute, and of two commits to the
    same field the later one alone decides the outcome. *)
Theorem duration_commits_compose (a b : Z) (w : World) :
  handleSetBreakTime b (handleSetWorkTime a w) =
    handleSetWorkTime a (handleSetBreakTime b w) /\
  handleSetWorkTime b (handleSetWorkTime a w) = handleSetWorkTime b w /\
  handleSetBreakTime b (handleSetBreakTime a w) = handleSetBreakTime b w.
Proof.
  unfold handleSetWorkTime, handleSetBreakTime, setWorkTime, setBreakTime,
    setRemainingTime.
  destruct_world w. simpl.
  destruct ses; destruct running; simpl; repeat split; reflexivity.
Qed.

(** X7: a cleared or non-numeric field, whose draft is 0, and every draft
    below one minute commit as one minute; every draft above the cap commits
    as the cap, 120 minutes of work or 60 minutes of break. *)
Theorem duration_commit_edges (d : Z) (w : World) :
  workTime (store (handleSetWorkTime (onChangeDraft None) w)) = 60 /\
  breakTime (store (handleSetBreakTime (onChangeDraft None) w)) = 60 /\
  (d <= 1 ->
   workTime (store (handleSetWorkTime (onChangeDraft (Some d)) w)) = 60 /\
   breakTime (store (handleSetBreakTime (onChangeDraft (Some d)) w)) = 60) /\
  (120 <= d ->
   workTime (store (handleSetWorkTime (onChangeDraft (Some d)) w)) = 7200) /\
  (60 <= d ->
   breakTime (store (handleSetBreakTime (onChangeDraft (Some d)) w)) = 3600).
Proof.
  assert (Hdraft : onChangeDraft (Some d) = d).
  { unfold onChangeDraft. destruct (Z.eqb_spec d 0); congruence. }
  rewrite Hdraft.
  unfold handleSetWorkTime, handleSetBreakTime.
  destruct (isWorkSession (store w)); destruct (isRunning (store w));
    simpl; repeat split; intros; lia.
Qed.

Lemma duration_commit_edges_witness :
  workTime (store (handleSetWorkTime (onChangeDraft (Some (-5)))
                     (initialWorld 1))) = 60 /\
  workTime (store (handleSetWorkTime (onChangeDraft (Some 500))
                     (initialWorld 1))) = 7200 /\
  breakTime (store (handleSetBreakTime (onChangeDraft (Some 500))
                      (initialWorld 1))) = 3600.
Proof.
  destruct (duration_commit_edges (-5) (initialWorld 1))
    as (_ & _ & Hlow & _ & _).
  destruct (duration_commit_edges 500 (initialWorld 1))
    as (_ & _ & _ & Hwork & Hbreak).
  split; [apply Hlow; lia | split; [apply Hwork; lia | apply Hbreak; lia]].
Defined.

(** ** What holds in every state the widget can reach *)

Lemma step_configOk (e : Event) (w : World) : configOk w -> configOk (step e w).
Proof.
  unfold configOk. intros (Hw & Hwm & Hb & Hbm & Hr & Hbr).
  destruct e as [| | | | m | m | h]; simpl step.
  - unfold startTimer. destruct_world w. simpl in *.
    destruct running; simpl; [easy |].
    destruct (rt =? 0); destruct ses; simpl; repeat split;
      try lia; try discriminate; intros; lia.
  - unfold pauseTimer. destruct_world w. simpl in *.
    destruct (truthy id); destruct id; simpl; easy.
  - unfold resetTimer, pauseTimer. destruct_world w. simpl in *.
    destruct (truthy id); destruct id; destruct ses; simpl; repeat split;
      try lia; try discriminate; intros; lia.
  - unfold skipSession, pauseTimer. destruct_world w. simpl in *.
    destruct (truthy id); destruct id; destruct ses; simpl; repeat split;
      try lia; try discriminate; intros; lia.
  - unfold handleSetWorkTime. destruct_world w. simpl in *.
    destruct ses; destruct running; simpl; repeat split;
      try lia; try (apply Z.mod_mul; lia); try discriminate; intros; lia.
  - unfold handleSetBreakTime. destruct_world w. simpl in *.
    destruct ses; destruct running; simpl; repeat split;
      try lia; try (apply Z.mod_mul; lia); try discriminate; intros; lia.
  - unfold fire.
    destruct (find (fun t => fst t =? h) (timers w)) as [[ht sound] |];
      [| easy].
    unfold tick. destruct_world w. simpl in *.
    destruct (Z.leb_spec rt 0).
    + destruct id; destruct sound; destruct ses; simpl; repeat split;
        try lia; try discriminate; intros; lia.
    + simpl. repeat split; try lia. intros Hses. specialize (Hbr Hses). lia.
Qed.

Lemma reachable_configOk (w : World) : reachable w -> configOk w.
Proof.
  induction 1 as [h0 Hh0 | e w Hw IH Hok].
  - unfold configOk. simpl. repeat split; try lia; try reflexivity;
      discriminate.
  - now apply step_configOk.
Qed.

(** X8: in every reachable state the work duration is a whole number of
    minutes between 1 and 120, the break duration one between 1 and 60, and
    the clock is never negative and never above 7200 s, nor above 3600 s in a
    break session. *)
Theorem reachable_durations_and_clock_bounded (w : World) :
  reachable w ->
  60 <= workTime (store w) <= 7200 /\ workTime (store w) mod 60 = 0 /\
  60 <= breakTime (store w) <= 3600 /\ breakTime (store w) mod 60 = 0 /\
  0 <= remainingTime (store w) <= 7200 /\
  (isWorkSession (store w) = false -> remainingTime (store w) <= 3600).
Proof.
  intros Hreach. exact (reachable_configOk w Hreach).
Qed.

Lemma reachable_durations_and_clock_bounded_witness :
  0 <= remainingTime (store (fst (runTicks 1 5 (startTimer (initialWorld 1)))))
    <= 7200.
Proof.
  apply (reachable_durations_and_clock_bounded
           (fst (runTicks 1 5 (startTimer (initialWorld 1))))).
  apply reachable_runTicks.
  apply (reach_step _ Start); [| reflexivity].
  apply reach_init. lia.
Defined.

Lemma filter_silent (f : Handle * option HTMLAudioElement -> bool)
  (ts : list (Handle * option HTMLAudioElement)) :
  Forall (fun t => snd t = None) ts ->
  Forall (fun t => snd t = None) (filter f ts).
Proof.
  rewrite !Forall_forall. intros Hall t Hin.
  apply filter_In in Hin. now apply Hall.
Qed.

Lemma step_silent (e : Event) (w : World) : silent w -> silent (step e w).
Proof.
  unfold silent. intros (Hsound & Hts & Hpl).
  destruct e as [| | | | m | m | h]; simpl step.
  - unfold startTimer. destruct_world w. simpl in *. subst snd.
    destruct running; simpl; [easy |].
    destruct (rt =? 0); simpl; repeat split; trivial;
      constructor; trivial.
  - unfold pauseTimer. destruct_world w. simpl in *.
    destruct (truthy id); destruct id; simpl; repeat split; trivial.
    now apply filter_silent.
  - unfold resetTimer, pauseTimer. destruct_world w. simpl in *.
    destruct (truthy id); destruct id; simpl; repeat split; trivial.
    now apply filter_silent.
  - unfold skipSession, pauseTimer. destruct_world w. simpl in *.
    destruct (truthy id); destruct id; simpl; repeat split; trivial.
    now apply filter_silent.
  - unfold handleSetWorkTime. destruct_world w. simpl in *.
    destruct (ses && negb running); simpl; easy.
  - unfold handleSetBreakTime. destruct_world w. simpl in *.
    destruct (negb ses && negb running); simpl; easy.
  - unfold fire.
    destruct (find (fun t => fst t =? h) (timers w)) as [t |] eqn:Hfind;
      [| easy].
    apply find_some in Hfind. destruct Hfind as [Hin _].
    pose proof (proj1 (Forall_forall _ _) Hts t Hin) as Hnone.
    destruct t as [ht sound]. simpl in Hnone. subst sound. simpl.
    unfold tick. destruct_world w. simpl in *.
    destruct (rt <=? 0); simpl; [| easy].
    destruct id; simpl; repeat split; trivial.
    now apply filter_silent.
Qed.

Lemma reachable_silent (w : World) : reachable w -> silent w.
Proof.
  induction 1 as [h0 Hh0 | e w Hw IH Hok].
  - unfold silent. simpl. repeat split; trivial.
  - now apply step_silent.
Qed.

(** X9: the page never stores an audio element, since nothing calls
    [setNotificationSound]; so in every reachable state [notificationSound]
    is [null], no interval callback has closed over an audio element, and
    the completion of a session has never played a sound. *)
Theorem completion_sound_never_played (w : World) :
  reachable w ->
  notificationSound (store w) = None /\
  Forall (fun t => snd t = None) (timers w) /\
  played w = O.
Proof.
  intros Hreach. exact (reachable_silent w Hreach).
Qed.

Lemma completion_sound_never_played_witness :
  played (fst (runTicks 1 3001 (startTimer (initialWorld 1)))) = O.
Proof.
  apply (completion_sound_never_played
           (fst (runTicks 1 3001 (startTimer (initialWorld 1))))).
  apply reachable_runTicks.
  apply (reach_step _ Start); [| reflexivity].
  apply reach_init. lia.
Defined.

(** X10: in a reachable state only the interval whose handle is stored can
    fire; any other handle, and every handle once the timer is stopped, has
    no callback left, so the store cannot change under a stopped timer. *)
Theorem only_stored_handle_fires (w : World) (h : Handle) :
  reachable w ->
  intervalId (store w) <> Some h ->
  fire h w = w.
Proof.
  intros Hreach Hother.
  destruct (reachable_handlesOk w Hreach) as (Hts & _ & _ & _).
  unfold fire. destruct (intervalId (store w)) as [h' |].
  - destruct (map_fst_single h' (timers w) Hts) as [sound ->]. simpl.
    destruct (Z.eqb_spec h' h) as [-> | Hne]; [now elim Hother | reflexivity].
  - apply map_eq_nil in Hts. now rewrite Hts.
Qed.

Lemma only_stored_handle_fires_witness :
  fire 1 (pauseTimer (startTimer (initialWorld 1))) =
    pauseTimer (startTimer (initialWorld 1)).
Proof.
  apply (only_stored_handle_fires (step Pause (step Start (initialWorld 1)))).
  - apply reach_step; [| reflexivity].
    apply reach_step; [| reflexivity].
    apply reach_init. lia.
  - simpl. discriminate.
Defined.

(** ** A countdown from start to completion *)

(** A running countdown of [r] seconds whose interval is live: [r] firings
    empty the clock, and the one after them ends the session. *)
Lemma running_countdown_completes (wt bt r : Z) (ses : bool) (h nh : Handle)
  (sound stored : option HTMLAudioElement) (pl : nat) :
  0 <= r ->
  runTicks h (Z.to_nat r + 1)
    (mkWorld (mkTimerState wt bt r true ses (Some h) stored)
       [(h, sound)] nh pl) =
  (mkWorld (mkTimerState wt bt (if ses then bt else wt) false (negb ses)
              None stored)
     [] nh (match sound with Some _ => S pl | None => pl end), 1%nat).
Proof.
  intros Hr. rewrite runTicks_add.
  rewrite (runTicks_countdown h (Z.to_nat r) _ (h, sound)).
  - rewrite Z2Nat.id by exact Hr. simpl. rewrite Z.sub_diag.
    unfold fire. simpl. rewrite Z.eqb_refl. unfold tick. simpl.
    rewrite Z.eqb_refl. destruct sound; destruct ses; reflexivity.
  - simpl. now rewrite Z.eqb_refl.
  - rewrite Z2Nat.id by exact Hr. simpl. lia.
Qed.

(** X11: started from any reachable stopped state, a countdown showing [r]
    seconds loses one second per firing of its interval for [r] firings and
    is completed by firing [r + 1]: that firing alone changes the session
    type, puts the other session's full duration on the clock, stops the
    timer and leaves no interval live. *)
Theorem started_countdown_completes (w : World) :
  reachable w ->
  isRunning (store w) = false ->
  let w1 := startTimer w in
  let r := remainingTime (store w1) in
  let h := nextHandle w in
  (forall k : nat, Z.of_nat k <= r ->
     runTicks h k w1 = (set_ [RemainingTime (r - Z.of_nat k)] w1, O)) /\
  snd (runTicks h (Z.to_nat r + 1) w1) = 1%nat /\
  store (fst (runTicks h (Z.to_nat r + 1) w1)) =
    mkTimerState (workTime (store w)) (breakTime (store w))
      (if isWorkSession (store w) then breakTime (store w)
       else workTime (store w))
      false (negb (isWorkSession (store w))) None
      (notificationSound (store w)) /\
  timers (fst (runTicks h (Z.to_nat r + 1) w1)) = [].
Proof.
  intros Hreach Hstopped.
  destruct (reachable_handlesOk w Hreach) as (Hts & Hrun & _ & _).
  destruct (reachable_configOk w Hreach) as (Hw & _ & Hb & _ & Hr & _).
  assert (Hstart : exists r, 0 <= r /\
    startTimer w =
      mkWorld
        (mkTimerState (workTime (store w)) (breakTime (store w)) r true
           (isWorkSession (store w)) (Some (nextHandle w))
           (notificationSound (store w)))
        [(nextHandle w, notificationSound (store w))]
        (nextHandle w + 1) (played w)).
  { revert Hts Hrun Hw Hb Hr Hstopped. destruct_world w. simpl.
    intros Hts Hrun Hw Hb Hr ->.
    destruct id as [h' |]; [discriminate |].
    apply map_eq_nil in Hts. subst ts.
    unfold startTimer. simpl.
    exists (if rt =? 0 then if ses then wt else bt else rt).
    destruct (rt =? 0); destruct ses; (split; [lia | reflexivity]). }
  destruct Hstart as (r & Hr0 & ->).
  cbv zeta. cbn [store remainingTime].
  split.
  - intros k Hk.
    rewrite (runTicks_countdown _ k _
               (nextHandle w, notificationSound (store w))).
    + reflexivity.
    + simpl. now rewrite Z.eqb_refl.
    + exact Hk.
  - rewrite running_countdown_completes by exact Hr0.
    repeat split; reflexivity.
Qed.

Lemma started_countdown_completes_witness :
  store (fst (runTicks 2 (Z.to_nat 600 + 1)
                (startTimer (skipSession (initialWorld 2))))) =
    mkTimerState 3000 600 3000 false true None None.
Proof.
  apply (started_countdown_completes (step Skip (initialWorld 2))).
  - apply reach_step; [apply reach_init; lia | reflexivity].
  - reflexivity.
Defined.

(** ** A duration commit for the stopped current session *)

(** X12: in a reachable stopped state, committing a duration for the session
    type one is in acts as [resetTimer] after the duration is stored: the
    clock restarts at the new full duration and what had elapsed of a paused
    countdown is lost, also when the committed duration is the one already
    configured. *)
Theorem commit_for_stopped_session_resets (d : Z) (w : World) :
  reachable w ->
  isRunning (store w) = false ->
  (if isWorkSession (store w) then handleSetWorkTime d w
   else handleSetBreakTime d w) =
  resetTimer
    (if isWorkSession (store w) then setWorkTime (clamp d 1 120 * 60) w
     else setBreakTime (clamp d 1 60 * 60) w).
Proof.
  intros Hreach Hstopped.
  destruct (reachable_handlesOk w Hreach) as (_ & Hrun & _ & _).
  rewrite <- (max_min_clamp d 1 120), <- (max_min_clamp d 1 60) by lia.
  revert Hrun Hstopped.
  unfold handleSetWorkTime, handleSetBreakTime, resetTimer, pauseTimer,
    setWorkTime, setBreakTime, setRemainingTime.
  destruct_world w. simpl. intros Hrun ->.
  destruct id as [h' |]; [discriminate |].
  destruct ses; reflexivity.
Qed.

Lemma commit_for_stopped_session_resets_witness :
  remainingTime (store (handleSetWorkTime 50 pausedAtZero)) = 3000.
Proof.
  change (handleSetWorkTime 50 pausedAtZero)
    with (if isWorkSession (store pausedAtZero)
          then handleSetWorkTime 50 pausedAtZero
          else handleSetBreakTime 50 pausedAtZero).
  rewrite (commit_for_stopped_session_resets 50 pausedAtZero).
  - reflexivity.
  - unfold pausedAtZero.
    apply (reach_step _ Pause); [| reflexivity].
    apply reachable_runTicks.
    apply (reach_step _ Start); [| reflexivity].
    apply reach_init. lia.
  - reflexivity.
Defined.

(** ** What the display shows *)



